(** * CineCart: order lifecycle, seat generation and view projections

    A shallow embedding of the admin dashboard
    ([src/pages/AdminDashboard.tsx]) and of the customer order list
    ([MyOrders]).  React state is a record, an event handler is a function
    from one state to the next, and whatever the remote service answers
    is an argument of the handler that awaits it. *)

From Stdlib Require Import ZArith Lia DecimalString Floats.
From stdpp Require Import base strings list gmap.

Local Open Scope string_scope.
Local Open Scope Z_scope.
Local Open Scope nat_scope.

(** ** Rows and the change feed *)

(** A JavaScript number is a binary64 floating-point number, and [+] on
    numbers is the rounded addition. *)
Definition number : Set := float.
Bind Scope float_scope with number.

#[global] Instance number_eq_dec : EqDecision number.
Proof.
  intros x y. destruct (PrimFloat.Leibniz.eqb x y) eqn:H.
  - left. by apply FloatAxioms.Leibniz.eqb_spec.
  - right. intros Heq. apply FloatAxioms.Leibniz.eqb_spec in Heq. congruence.
Defined.

(** A row of [orders] as the views read it.  [total_amount] is the
    number the client receives, so [Number(o.total_amount)] is that
    number. *)
Record order := mkOrder {
  id : string;
  user_id : string;
  show_id : string;
  total_amount : number;
  status : string;
  payment_id : string
}.

(** [{ ...o, status }] *)
Definition set_status (o : order) (s : string) : order :=
  {| id := id o; user_id := user_id o; show_id := show_id o;
     total_amount := total_amount o; status := s;
     payment_id := payment_id o |}.

#[global] Instance order_eq_dec : EqDecision order.
Proof. solve_decision. Defined.

(** The four statuses of the workflow and the ordering
    Confirmed < Preparing < Ready < Collected.  The source has no such
    table: the ordering is the one the lifecycle is described with, and
    it is used only to state what the handlers do to it. *)
Definition known_statuses : list string :=
  ["Confirmed"; "Preparing"; "Ready"; "Collected"].


(** What the service answers to a request: [{ data, error }]. *)
Record pg_error := mkError { message : string }.

(** The kinds of row change the feed emits, and the [event] field of a
    subscription: ["*"] or one kind. *)
Inductive pg_event := INSERT | UPDATE | DELETE.
Inductive event_filter := AnyEvent | Only (e : pg_event).

#[global] Instance pg_event_eq_dec : EqDecision pg_event.
Proof. solve_decision. Defined.

(** [.on("postgres_changes", { event, schema, table }, handler)] *)
Record subscription := mkSub {
  channel : string;
  event : event_filter;
  schema : string;
  table : string
}.

(** One committed change of a table. *)
Record change := mkChange {
  ch_schema : string;
  ch_table : string;
  ch_event : pg_event
}.

(** The feed calls the handler of a subscription for the changes of its
    schema and table whose kind its [event] names; ["*"] names all. *)
Definition delivers (sub : subscription) (c : change) : bool :=
  bool_decide (schema sub = ch_schema c) &&
  bool_decide (table sub = ch_table c) &&
  match event sub with
  | AnyEvent => true
  | Only e => bool_decide (e = ch_event c)
  end.

Definition orders_change (e : pg_event) : change := mkChange "public" "orders" e.

(** [`${n}`] for a non-negative integer. *)
Definition number_to_string (n : nat) : string :=
  NilEmpty.string_of_uint (Nat.to_uint n).

(** ** [AddMovieForm]: scheduling a show *)

Module AddMovieForm.

Record ShowForm := mkShowForm {
  movie_id : string;
  screen : string;
  show_time : string
}.

Definition emptyShow : ShowForm := mkShowForm "" "" "".

(** The row [.select().single()] gives back; the handler reads its [id]. *)
Record show_row := mkShowRow {
  show_row_id : string;
  show_row_movie_id : string;
  show_row_screen : string;
  show_row_time : string
}.

Record seat := mkSeat {
  seat_show_id : string;
  seat_number : string;
  is_booked : bool
}.

Record show_response := mkShowResponse {
  data : option show_row;
  error : option pg_error
}.

(** What the handler calls and cannot decide itself.  [toISOString]
    is [new Date(s).toISOString()], [None] when it throws on a date
    that does not parse. *)
Record Service := mkService {
  toISOString : string → option string;
  shows_insert : ShowForm → show_response;
  seats_insert : list seat → option pg_error
}.

(** What a run of the handler does, in order. *)
Inductive effect :=
| ToastError (msg : string)
| ToastSuccess (msg : string)
| SetSavingShow (b : bool)
| InsertShow (row : ShowForm)
| InsertSeats (rows : list seat)
| SetShowForm (f : ShowForm)
| FetchShows
| Throw (msg : string).

Definition ROWS : list string := ["A"; "B"; "C"; "D"; "E"; "F"; "G"; "H"].
Definition COLS : nat := 8.

(** [ROWS.flatMap((row) => Array.from({ length: COLS }, (_, i) => ...))] *)
Definition seatRows (showData_id : string) : list seat :=
  ROWS ≫= (λ row,
    (λ i, {| seat_show_id := showData_id;
             seat_number := row +:+ number_to_string (i + 1);
             is_booked := false |}) <$> seq 0 COLS).

(** [!s] on a string *)
Definition falsy (s : string) : bool := bool_decide (s = "").

Definition handleAddShow (svc : Service) (showForm : ShowForm) : list effect :=
  if falsy (movie_id showForm) || falsy (screen showForm) || falsy (show_time showForm)
  then [ToastError "Movie, screen, and show time are required"]
  else
    SetSavingShow true ::
    match toISOString svc (show_time showForm) with
    | None => [Throw "RangeError: Invalid time value"]
    | Some iso =>
        let row := mkShowForm (movie_id showForm) (screen showForm) iso in
        let res := shows_insert svc row in
        InsertShow row ::
        match error res, data res with
        | None, Some showData =>
            let seatRows := seatRows (show_row_id showData) in
            InsertSeats seatRows ::
            SetSavingShow false ::
            match seats_insert svc seatRows with
            | Some seatError =>
                [ToastError ("Show created but seats failed: " +:+ message seatError)]
            | None =>
                [ToastSuccess "Show scheduled with 64 seats!";
                 SetShowForm emptyShow;
                 FetchShows]
            end
        | err, _ =>
            [SetSavingShow false;
             ToastError (default "Failed to create show" (message <$> err))]
        end
    end.

(** A run reports success when it shows a success toast. *)
Definition reports_success (tr : list effect) : Prop :=
  ∃ msg, ToastSuccess msg ∈ tr.

Definition reports_failure (tr : list effect) (msg : string) : Prop :=
  ToastError msg ∈ tr.

End AddMovieForm.

(** ** [AdminDashboard] *)

Module AdminDashboard.

Inductive Tab := TabOrders | TabMovies | TabSnacks.
Inductive OrdersView := ViewActive | ViewHistory.

(** The [useState] cells of the component, with [authLoading] of
    [useAuth]. *)
Record State := mkState {
  authLoading : bool;
  activeTab : Tab;
  orders : list order;
  shows : list AddMovieForm.show_row;
  filterShow : string;
  loading : bool;
  ordersView : OrdersView
}.

Definition setOrders (f : list order → list order) (S : State) : State :=
  {| authLoading := authLoading S; activeTab := activeTab S;
     orders := f (orders S); shows := shows S; filterShow := filterShow S;
     loading := loading S; ordersView := ordersView S |}.

Definition setShows (l : list AddMovieForm.show_row) (S : State) : State :=
  {| authLoading := authLoading S; activeTab := activeTab S;
     orders := orders S; shows := l; filterShow := filterShow S;
     loading := loading S; ordersView := ordersView S |}.

Definition setLoading (b : bool) (S : State) : State :=
  {| authLoading := authLoading S; activeTab := activeTab S;
     orders := orders S; shows := shows S; filterShow := filterShow S;
     loading := b; ordersView := ordersView S |}.

Definition setOrdersView (v : OrdersView) (S : State) : State :=
  {| authLoading := authLoading S; activeTab := activeTab S;
     orders := orders S; shows := shows S; filterShow := filterShow S;
     loading := loading S; ordersView := v |}.

Definition setFilterShow (f : string) (S : State) : State :=
  {| authLoading := authLoading S; activeTab := activeTab S;
     orders := orders S; shows := shows S; filterShow := f;
     loading := loading S; ordersView := ordersView S |}.

Definition setActiveTab (t : Tab) (S : State) : State :=
  {| authLoading := authLoading S; activeTab := t;
     orders := orders S; shows := shows S; filterShow := filterShow S;
     loading := loading S; ordersView := ordersView S |}.

(** The dashboard and the [orders] table it writes to.  The table is
    remote: a write may or may not be applied there, and the handler
    does not look at the answer. *)
Record World := mkWorld {
  db_orders : list order;
  view : State
}.

(** [fetchData]: the two answers, each kept only when it has [data]. *)
Definition fetchData (ordersRes : option (list order))
    (showsRes : option (list AddMovieForm.show_row)) (S : State) : State :=
  let S1 := match ordersRes with Some d => setOrders (λ _, d) S | None => S end in
  let S2 := match showsRes with Some d => setShows d S1 | None => S1 end in
  setLoading false S2.

(** The [orders-realtime] channel. *)
Definition subscription : subscription := mkSub "orders-realtime" AnyEvent "public" "orders".

(** What a committed change does to the view: the handler is [fetchData]. *)
Definition on_change (c : change) (ordersRes : option (list order))
    (showsRes : option (list AddMovieForm.show_row)) (S : State) : State :=
  if delivers subscription c then fetchData ordersRes showsRes S else S.

(** [o.id === orderId ? { ...o, status } : o] *)
Definition restatus (orderId s : string) (o : order) : order :=
  if decide (id o = orderId) then set_status o s else o.

(** [supabase.from("orders").update({ status }).eq("id", orderId)]:
    [applied] says whether the service carried the write out. *)
Definition db_update_status (applied : bool) (orderId s : string)
    (tbl : list order) : list order :=
  if applied then restatus orderId s <$> tbl else tbl.

(** [updateStatus]: the awaited write, its answer dropped, then
    [setOrders((prev) => prev.map(...))]. *)
Definition updateStatus (applied : bool) (orderId s : string) (w : World) : World :=
  {| db_orders := db_update_status applied orderId s (db_orders w);
     view := setOrders (λ prev, restatus orderId s <$> prev) (view w) |}.

(** The derived values computed in the body of the component. *)
Definition byShow (S : State) : list order :=
  if decide (filterShow S = "all") then orders S
  else filter (λ o, show_id o = filterShow S) (orders S).

Definition activeOrders (S : State) : list order :=
  filter (λ o, status o ≠ "Collected") (byShow S).

Definition historyOrders (S : State) : list order :=
  filter (λ o, status o = "Collected") (byShow S).

Definition filtered (S : State) : list order :=
  match ordersView S with
  | ViewActive => activeOrders S
  | ViewHistory => historyOrders S
  end.

(** [activeOrders.reduce((s, o) => s + Number(o.total_amount), 0)] *)
Definition totalRevenue (S : State) : number :=
  foldl (λ s o, (s + total_amount o)%float) 0%float (activeOrders S).

(** The buttons of the Actions cell; each calls [updateStatus] with the
    id of its row's order and the status it names. *)
Inductive button := BtnPreparing | BtnReady | BtnCollected.

#[global] Instance button_eq_dec : EqDecision button.
Proof. solve_decision. Defined.

Definition button_status (b : button) : string :=
  match b with
  | BtnPreparing => "Preparing"
  | BtnReady => "Ready"
  | BtnCollected => "Collected"
  end.

(** The Actions cell of one row: present in the active view only, the
    Collected button under [order.status === "Ready"]. *)
Definition row_buttons (v : OrdersView) (o : order) : list button :=
  match v with
  | ViewActive =>
      [BtnPreparing; BtnReady] ++
      (if decide (status o = "Ready") then [BtnCollected] else [])
  | ViewHistory => []
  end.

(** The rows of the orders table: none while the spinner shows or
    another tab is open. *)
Definition table_rows (S : State) : list (order * list button) :=
  if authLoading S || loading S then []
  else match activeTab S with
       | TabOrders => (λ o, (o, row_buttons (ordersView S) o)) <$> filtered S
       | _ => []
       end.

(** What the admin can do on the orders tab, each action carried to its
    end before the next: a click with its write and the lines after the
    [await], nothing else happening meanwhile.  A click names the row by
    its order's id; it does something only when a row of that order
    shows the button.  [Live] below lets calls overlap. *)
Inductive action :=
| Click (orderId : string) (b : button) (applied : bool)
| SelectView (v : OrdersView)
| SelectShow (f : string)
| SelectTab (t : Tab).

Definition offers (S : State) (orderId : string) (b : button) : bool :=
  bool_decide (Exists (λ row, id row.1 = orderId ∧ b ∈ row.2) (table_rows S)).

Definition step (a : action) (w : World) : World :=
  match a with
  | Click orderId b applied =>
      if offers (view w) orderId b
      then updateStatus applied orderId (button_status b) w
      else w
  | SelectView v => {| db_orders := db_orders w; view := setOrdersView v (view w) |}
  | SelectShow f => {| db_orders := db_orders w; view := setFilterShow f (view w) |}
  | SelectTab t => {| db_orders := db_orders w; view := setActiveTab t (view w) |}
  end.

(** The status the dashboard holds for an order. *)
Definition shown_status (S : State) (orderId : string) : option string :=
  status <$> head (filter (λ o, id o = orderId) (orders S)).

End AdminDashboard.

(** ** [AdminDashboard] with its calls in flight *)

(** [updateStatus] and [fetchData] are [async]: between the request and
    the lines after the [await] the page stays as it was, its buttons can
    be clicked again, and other answers can arrive.  The world is the
    stored table, the dashboard, and the calls that have begun and not
    ended.  The table is written by the dashboard's calls only. *)
Module Live.
Import AdminDashboard.

(** An [updateStatus] call made by a button. *)
Record call := mkCall { call_orderId : string; call_button : button }.

(** The answers to the two queries of a [fetchData] call. *)
Record answer := mkAnswer {
  ordersRes : option (list order);
  showsRes : option (list AddMovieForm.show_row)
}.

Record World := mkWorld {
  stored : list order;
  dash : State;
  (* calls whose write has not reached the service *)
  writing : list call;
  (* calls whose write was answered, before the lines after [await] *)
  awaiting : list call;
  (* [fetchData] calls whose queries were answered, before the lines
     after [await] *)
  fetching : list answer
}.

(** What can happen next.  The feed delivers when it will, so a
    [fetchData] call can have its queries answered at any moment;
    requests and answers are not kept in order. *)
Inductive event :=
| Click (orderId : string) (b : button)
| Write (n : nat) (applied : bool)
| Resume (n : nat)
| Query (ordersOk : bool) (shows : option (list AddMovieForm.show_row))
| Fetched (n : nat)
| SelectView (v : OrdersView)
| SelectShow (f : string)
| SelectTab (t : Tab).

Definition with_dash (S : State) (w : World) : World :=
  {| stored := stored w; dash := S; writing := writing w;
     awaiting := awaiting w; fetching := fetching w |}.

Definition step (e : event) (w : World) : World :=
  match e with
  | Click orderId b =>
      if offers (dash w) orderId b
      then {| stored := stored w; dash := dash w;
              writing := writing w ++ [mkCall orderId b];
              awaiting := awaiting w; fetching := fetching w |}
      else w
  | Write n applied =>
      match writing w !! n with
      | Some c =>
          {| stored := db_update_status applied (call_orderId c)
                         (button_status (call_button c)) (stored w);
             dash := dash w;
             writing := delete n (writing w);
             awaiting := awaiting w ++ [c];
             fetching := fetching w |}
      | None => w
      end
  | Resume n =>
      match awaiting w !! n with
      | Some c =>
          {| stored := stored w;
             dash := setOrders
                       (λ prev, restatus (call_orderId c)
                                  (button_status (call_button c)) <$> prev)
                       (dash w);
             writing := writing w;
             awaiting := delete n (awaiting w);
             fetching := fetching w |}
      | None => w
      end
  | Query ordersOk shows =>
      {| stored := stored w; dash := dash w; writing := writing w;
         awaiting := awaiting w;
         fetching := fetching w ++
                     [mkAnswer (if ordersOk then Some (stored w) else None) shows] |}
  | Fetched n =>
      match fetching w !! n with
      | Some a =>
          {| stored := stored w;
             dash := fetchData (ordersRes a) (showsRes a) (dash w);
             writing := writing w; awaiting := awaiting w;
             fetching := delete n (fetching w) |}
      | None => w
      end
  | SelectView v => with_dash (setOrdersView v (dash w)) w
  | SelectShow f => with_dash (setFilterShow f (dash w)) w
  | SelectTab t => with_dash (setActiveTab t (dash w)) w
  end.

Definition run (evs : list event) (w : World) : World :=
  foldl (λ w e, step e w) w evs.

(** A table and a dashboard with nothing in flight. *)
Definition quiet (w : AdminDashboard.World) : World :=
  mkWorld (db_orders w) (view w) [] [] [].

End Live.

(** ** [MyOrders] *)

Module MyOrders.

Record style := mkStyle { cls : string; icon : string }.

(** The own properties of the [STATUS_STYLES] object. *)
Definition STATUS_STYLES : gmap string style :=
  {[ "Confirmed" := mkStyle "bg-primary/10 text-primary" "CheckCircle";
     "Preparing" := mkStyle "bg-yellow-500/10 text-yellow-400" "ChefHat";
     "Ready" := mkStyle "bg-green-500/10 text-green-400" "Star";
     "Collected" := mkStyle "bg-muted/30 text-muted-foreground" "CheckCircle" ]}.

(** [STATUS_STYLES] is an object literal, so a property it does not own
    is looked up on [Object.prototype], whose properties are these. *)
Definition Object_prototype : list string :=
  ["constructor"; "__defineGetter__"; "__defineSetter__"; "hasOwnProperty";
   "__lookupGetter__"; "__lookupSetter__"; "isPrototypeOf";
   "propertyIsEnumerable"; "toString"; "valueOf"; "__proto__";
   "toLocaleString"].

(** What [STATUS_STYLES[key]] can be. *)
Inductive js_value :=
| JUndefined
| JStyle (s : style)
| JInherited (name : string).

(** [obj[key]] *)
Definition get (obj : gmap string style) (key : string) : js_value :=
  match obj !! key with
  | Some s => JStyle s
  | None => if decide (key ∈ Object_prototype) then JInherited key else JUndefined
  end.

(** [a ?? b] *)
Definition nullish (a b : js_value) : js_value :=
  match a with JUndefined => b | _ => a end.

(** [v.cls] and [v.icon]: no member of [Object.prototype] has either. *)
Definition get_cls (v : js_value) : option string :=
  match v with JStyle s => Some (cls s) | _ => None end.

Definition get_icon (v : js_value) : option string :=
  match v with JStyle s => Some (icon s) | _ => None end.

(** The status badge of a card, or the error React raises for an
    element whose type is [undefined]. *)
Inductive rendered :=
| Badge (className : string) (icon : string) (label : string)
| RenderError (msg : string).

(** [const { cls, icon: Icon } = STATUS_STYLES[order.status] ??
    STATUS_STYLES["Confirmed"]] and the [<span>] that uses them. *)
Definition render_badge (o : order) : rendered :=
  let v := nullish (get STATUS_STYLES (status o)) (get STATUS_STYLES "Confirmed") in
  match v with
  | JUndefined => RenderError "TypeError: cannot destructure undefined"
  | _ =>
      let cls := get_cls v in
      match get_icon v with
      | None => RenderError "Element type is invalid: got undefined"
      | Some Icon =>
          Badge ("flex items-center gap-1 px-2.5 py-1 rounded-full text-xs font-medium "
                   +:+ default "undefined" cls)
                Icon (status o)
      end
  end.

Inductive Tab := TabActive | TabHistory.

Record State := mkState {
  authLoading : bool;
  user : option string;
  orders : list order;
  loading : bool;
  tab : Tab
}.

(** [fetchOrders] once the query has answered: [if (data) setOrders(data);
    setLoading(false)]. *)
Definition fetchOrders (data : option (list order)) (S : State) : State :=
  {| authLoading := authLoading S;
     user := user S;
     orders := match data with Some d => d | None => orders S end;
     loading := false;
     tab := tab S |}.

(** The rows the query selects: [.eq("user_id", user.id)].  The table
    is kept newest first, which is the order asked for. *)
Definition select_orders (tbl : list order) (uid : string) : list order :=
  filter (λ o, user_id o = uid) tbl.

(** The [my-orders-realtime] channel. *)
Definition subscription : subscription := mkSub "my-orders-realtime" (Only UPDATE) "public" "orders".

(** What a committed change does to the view.  The effect that fetches
    and subscribes returns at once under [if (!user) return]: without a
    user there is no channel and no fetch.  With one, the handler is
    [fetchOrders]. *)
Definition on_change (c : change) (data : option (list order)) (S : State) : State :=
  match user S with
  | None => S
  | Some _ => if delivers subscription c then fetchOrders data S else S
  end.

Definition active (S : State) : list order :=
  filter (λ o, status o ≠ "Collected") (orders S).

Definition history (S : State) : list order :=
  filter (λ o, status o = "Collected") (orders S).

Definition shown (S : State) : list order :=
  match tab S with
  | TabActive => active S
  | TabHistory => history S
  end.

(** The status badges of the cards: none while the spinner shows. *)
Definition badges (S : State) : list rendered :=
  if authLoading S || loading S then [] else render_badge <$> shown S.

End MyOrders.

(** ** [AddMovieForm]: adding a movie *)

Module AddMovie.

Record MovieForm := mkMovieForm {
  title : string;
  duration : string;
  genre : string;
  rating : string;
  description : string;
  poster_url : string
}.

Definition emptyMovie : MovieForm := mkMovieForm "" "" "" "" "" "".

(** [supabase.from("movies").insert([movieForm])]: the error, if any. *)
Record Service := mkService {
  movies_insert : MovieForm → option pg_error
}.

Inductive effect :=
| ToastError (msg : string)
| ToastSuccess (msg : string)
| SetSavingMovie (b : bool)
| InsertMovie (row : MovieForm)
| SetMovieForm (f : MovieForm)
| FetchMovies.

Definition handleAddMovie (svc : Service) (movieForm : MovieForm) : list effect :=
  if AddMovieForm.falsy (title movieForm) || AddMovieForm.falsy (duration movieForm)
  then [ToastError "Title and duration are required"]
  else
    SetSavingMovie true ::
    InsertMovie movieForm ::
    SetSavingMovie false ::
    match movies_insert svc movieForm with
    | Some error => [ToastError (message error)]
    | None => [ToastSuccess "Movie added!"; SetMovieForm emptyMovie; FetchMovies]
    end.

Definition is_toast (e : effect) : bool :=
  match e with ToastError _ | ToastSuccess _ => true | _ => false end.

End AddMovie.

(** ** [AddSnackForm] *)

Module AddSnackForm.

(** A JavaScript number: not a number, an infinity, or the finite value
    [m * 2^e]. *)
Inductive number :=
| NaN
| Infinity (negative : bool)
| Finite (m e : Z).

Definition isNaN (n : number) : bool :=
  match n with NaN => true | _ => false end.

(** [n <= 0] *)
Definition le_zero (n : number) : bool :=
  match n with
  | NaN => false
  | Infinity negative => negative
  | Finite m _ => bool_decide (m ≤ 0)%Z
  end.

Record Form := mkForm {
  name : string;
  price : string;
  category : string;
  image_url : string
}.

Definition empty : Form := mkForm "" "" "snack" "".

(** [{ ...form, price: Number(form.price) }] *)
Record snack_row := mkSnackRow {
  row_name : string;
  row_price : number;
  row_category : string;
  row_image_url : string
}.

(** [Number] is the conversion of the language, [snacks_insert] the
    answer of the service. *)
Record Service := mkService {
  Number : string → number;
  snacks_insert : snack_row → option pg_error
}.

Inductive effect :=
| ToastError (msg : string)
| ToastSuccess (msg : string)
| SetSaving (b : bool)
| InsertSnack (row : snack_row)
| SetForm (f : Form)
| FetchSnacks.

Definition handleSubmit (svc : Service) (form : Form) : list effect :=
  if AddMovieForm.falsy (name form) || AddMovieForm.falsy (price form)
  then [ToastError "Name and price are required"]
  else if isNaN (Number svc (price form)) || le_zero (Number svc (price form))
  then [ToastError "Enter a valid price"]
  else
    let row := mkSnackRow (name form) (Number svc (price form))
                 (category form) (image_url form) in
    SetSaving true ::
    InsertSnack row ::
    SetSaving false ::
    match snacks_insert svc row with
    | Some error => [ToastError (message error)]
    | None => [ToastSuccess "Snack added!"; SetForm empty; FetchSnacks]
    end.

Definition is_toast (e : effect) : bool :=
  match e with ToastError _ | ToastSuccess _ => true | _ => false end.

End AddSnackForm.

(** ** [AdminDashboard]: the stat cards and the status cell *)

Module DashboardCards.
Import AdminDashboard.

(** The values of the Orders, Confirmed and Preparing cards. *)
Definition stat_orders (S : State) : nat := length (filtered S).

Definition stat_confirmed (S : State) : nat :=
  length (filter (λ o, status o = "Confirmed") (filtered S)).

Definition stat_preparing (S : State) : nat :=
  length (filter (λ o, status o = "Preparing") (filtered S)).

(** The counts on the Active / History toggle. *)
Definition toggle_count (S : State) (v : OrdersView) : nat :=
  match v with
  | ViewActive => length (activeOrders S)
  | ViewHistory => length (historyOrders S)
  end.

(** The colours of the status cell of a row. *)
Definition status_class (s : string) : string :=
  if decide (s = "Ready") then "bg-green-500/10 text-green-400"
  else if decide (s = "Preparing") then "bg-yellow-500/10 text-yellow-400"
  else if decide (s = "Collected") then "bg-muted/30 text-muted-foreground"
  else "bg-primary/10 text-primary".

End DashboardCards.

(** ** [MyOrders]: the contents of a card and of the ticket *)

Module OrderCard.

(** The joins the query brings with an order; a join whose row is gone
    is [null]. *)
Record seat_ref := mkSeatRef { ref_seat_number : string }.
Record order_seat := mkOrderSeat { seat_id : string; seats : option seat_ref }.
Record snack_ref := mkSnackRef { ref_name : string }.
Record order_item := mkOrderItem { quantity : nat; snacks : option snack_ref }.

Record joined := mkJoined {
  row : order;
  order_seats : option (list order_seat);
  order_items : option (list order_item)
}.

(** [order.order_seats?.map((s) => s.seats?.seat_number).filter(Boolean) ?? []]:
    [filter(Boolean)] drops [undefined] and the empty string. *)
Definition seatNums (j : joined) : list string :=
  match order_seats j with
  | Some l =>
      omap (λ s, match seats s with
                 | Some r => if AddMovieForm.falsy (ref_seat_number r) then None
                             else Some (ref_seat_number r)
                 | None => None
                 end) l
  | None => []
  end.

(** [`${it.snacks?.name} ×${it.quantity}`] *)
Definition item_text (it : order_item) : string :=
  match snacks it with Some r => ref_name r | None => "undefined" end
  +:+ " ×" +:+ number_to_string (quantity it).

(** [order.order_items?.map(...).filter(Boolean) ?? []] *)
Definition snackItems (j : joined) : list string :=
  match order_items j with
  | Some l => filter (λ t, t ≠ "") (item_text <$> l)
  | None => []
  end.

(** [l.join(sep)] *)
Fixpoint join (sep : string) (l : list string) : string :=
  match l with
  | [] => ""
  | [x] => x
  | x :: l' => x +:+ sep +:+ join sep l'
  end.

(** The Seats line of a card: [seatNums.length > 0 ? seatNums.join(", ") : "—"]. *)
Definition card_seats (j : joined) : string :=
  if bool_decide (0 < length (seatNums j)) then join ", " (seatNums j) else "—".

(** The Seats line of the ticket: [seatNums.join(", ") || "—"]. *)
Definition ticket_seats (j : joined) : string :=
  if AddMovieForm.falsy (join ", " (seatNums j)) then "—" else join ", " (seatNums j).

(** The orders whose card has the View Ticket button: no card at all
    while the spinner shows, then the cards under [tab === "active"]. *)
Definition ticket_buttons (S : MyOrders.State) : list order :=
  if MyOrders.authLoading S || MyOrders.loading S then []
  else match MyOrders.tab S with
       | MyOrders.TabActive => MyOrders.shown S
       | MyOrders.TabHistory => []
       end.

End OrderCard.

(** ** What a run leaves behind *)

(** The toasts of a run of [handleAddShow], and [savingShow] and the form
    after it. *)
Definition show_is_toast (e : AddMovieForm.effect) : bool :=
  match e with
  | AddMovieForm.ToastError _ | AddMovieForm.ToastSuccess _ => true
  | _ => false
  end.

Definition savingShow_after (b0 : bool) (tr : list AddMovieForm.effect) : bool :=
  foldl (λ b e, match e with AddMovieForm.SetSavingShow b' => b' | _ => b end) b0 tr.

Definition showForm_after (f0 : AddMovieForm.ShowForm) (tr : list AddMovieForm.effect)
    : AddMovieForm.ShowForm :=
  foldl (λ f e, match e with AddMovieForm.SetShowForm f' => f' | _ => f end) f0 tr.

(** The form passes the check of [handleAddShow]. *)
Definition show_form_filled (f : AddMovieForm.ShowForm) : bool :=
  negb (AddMovieForm.falsy (AddMovieForm.movie_id f) ||
        AddMovieForm.falsy (AddMovieForm.screen f) ||
        AddMovieForm.falsy (AddMovieForm.show_time f)).

(** A price that passes the check of [handleSubmit]. *)
Definition positive_number (n : AddSnackForm.number) : Prop :=
  match n with
  | AddSnackForm.NaN => False
  | AddSnackForm.Infinity negative => negative = false
  | AddSnackForm.Finite m _ => (0 < m)%Z
  end.

(** ** Reference statements *)

(** The labels of the 8 x 8 grid, row by row. *)
Definition seat_labels : list string :=
  ["A1"; "A2"; "A3"; "A4"; "A5"; "A6"; "A7"; "A8";
   "B1"; "B2"; "B3"; "B4"; "B5"; "B6"; "B7"; "B8";
   "C1"; "C2"; "C3"; "C4"; "C5"; "C6"; "C7"; "C8";
   "D1"; "D2"; "D3"; "D4"; "D5"; "D6"; "D7"; "D8";
   "E1"; "E2"; "E3"; "E4"; "E5"; "E6"; "E7"; "E8";
   "F1"; "F2"; "F3"; "F4"; "F5"; "F6"; "F7"; "F8";
   "G1"; "G2"; "G3"; "G4"; "G5"; "G6"; "G7"; "G8";
   "H1"; "H2"; "H3"; "H4"; "H5"; "H6"; "H7"; "H8"].

(** A service whose show insert works and whose seat insert fails. *)
Definition svc_seats_fail : AddMovieForm.Service :=
  AddMovieForm.mkService
    (λ s, Some s)
    (λ row, AddMovieForm.mkShowResponse
              (Some (AddMovieForm.mkShowRow "show-1" (AddMovieForm.movie_id row)
                       (AddMovieForm.screen row) (AddMovieForm.show_time row)))
              None)
    (λ _, Some (mkError "timeout")).

Definition form_filled : AddMovieForm.ShowForm :=
  AddMovieForm.mkShowForm "movie-1" "Screen 1" "2026-01-01T18:00".

(** A dashboard that shows one order, Ready, and the table holding it. *)
Definition o_ready : order := mkOrder "o1" "u1" "s1" 500 "Ready" "pay_1".

Definition w_ready : AdminDashboard.World :=
  AdminDashboard.mkWorld [o_ready]
    (AdminDashboard.mkState false AdminDashboard.TabOrders [o_ready] []
       "all" false AdminDashboard.ViewActive).

Definition o_confirmed : order := mkOrder "o2" "u1" "s1" 250 "Confirmed" "pay_2".

Definition w_confirmed : AdminDashboard.World :=
  AdminDashboard.mkWorld [o_confirmed]
    (AdminDashboard.mkState false AdminDashboard.TabOrders [o_confirmed] []
       "all" false AdminDashboard.ViewActive).


(** What the dashboard's calls can make of a stored order: nothing, or
    the same order with the status of one of the buttons. *)
Definition status_written (o o' : order) : Prop :=
  o' = o ∨ ∃ b, o' = set_status o (AdminDashboard.button_status b).

(** The revenue figure as it is described: the fetched orders are gone
    through once, in the order fetched, and the amount of each order that
    is not Collected and belongs to the chosen show, or to any show under
    "all", is added to the sum so far, which starts at 0. *)
Definition counts_for_revenue (f : string) (o : order) : bool :=
  bool_decide (status o ≠ "Collected") &&
  (bool_decide (f = "all") || bool_decide (show_id o = f)).

Fixpoint revenue_from (sum : number) (f : string) (fetched : list order) : number :=
  match fetched with
  | [] => sum
  | o :: rest =>
      revenue_from (if counts_for_revenue f o then (sum + total_amount o)%float else sum)
        f rest
  end.

Definition revenue_of (f : string) (fetched : list order) : number :=
  revenue_from 0%float f fetched.

(** A customer's list before their order is inserted, and the table
    after. *)
Definition my_empty : MyOrders.State :=
  MyOrders.mkState false (Some "u1") [] false MyOrders.TabActive.

Definition tbl_inserted : list order := [o_confirmed].

(** The list before anyone is signed in. *)
Definition my_signed_out : MyOrders.State :=
  MyOrders.mkState true None [] true MyOrders.TabActive.

(** An order whose status is the name of a member of [Object.prototype],
    and a list that holds it. *)
Definition o_constructor : order :=
  mkOrder "o3" "u1" "s1" 100 "constructor" "pay_3".

Definition my_constructor : MyOrders.State :=
  MyOrders.mkState false (Some "u1") [o_constructor] false MyOrders.TabActive.

Definition o_cancelled : order :=
  mkOrder "o4" "u1" "s1" 100 "Cancelled" "pay_4".

(** Services whose show insert fails: with an error, and with neither
    error nor row. *)
Definition svc_show_error : AddMovieForm.Service :=
  AddMovieForm.mkService
    (λ s, Some s)
    (λ _, AddMovieForm.mkShowResponse None (Some (mkError "duplicate key")))
    (λ _, None).

Definition svc_show_no_row : AddMovieForm.Service :=
  AddMovieForm.mkService
    (λ s, Some s)
    (λ _, AddMovieForm.mkShowResponse None None)
    (λ _, None).

(** A snack form with a price, and a service that reads it. *)
Definition snack_form : AddSnackForm.Form :=
  AddSnackForm.mkForm "Butter Popcorn" "150" "snack" "".

Definition svc_snack : AddSnackForm.Service :=
  AddSnackForm.mkService
    (λ s, if decide (s = "150") then AddSnackForm.Finite 150 0 else AddSnackForm.NaN)
    (λ _, None).

(** Dashboards whose amounts do not add up exactly. *)
Definition w_large : AdminDashboard.World :=
  AdminDashboard.mkWorld []
    (AdminDashboard.mkState false AdminDashboard.TabOrders
       [mkOrder "o6" "u1" "s1" 9007199254740992 "Confirmed" "pay_6";
        mkOrder "o7" "u1" "s1" 1 "Confirmed" "pay_7";
        mkOrder "o8" "u1" "s1" 1 "Ready" "pay_8"]
       [] "all" false AdminDashboard.ViewActive).

Definition w_tenths : AdminDashboard.World :=
  AdminDashboard.mkWorld []
    (AdminDashboard.mkState false AdminDashboard.TabOrders
       [mkOrder "o9" "u1" "s1" 0x1.999999999999ap-4 "Confirmed" "pay_9";
        mkOrder "o10" "u1" "s1" 0x1.999999999999ap-3 "Ready" "pay_10"]
       [] "all" false AdminDashboard.ViewActive).

(** A dashboard in the history view, holding one order of each kind. *)
Definition o_collected : order := mkOrder "o5" "u2" "s2" 300 "Collected" "pay_5".

Definition w_mixed : AdminDashboard.World :=
  AdminDashboard.mkWorld [o_ready; o_confirmed; o_collected]
    (AdminDashboard.mkState false AdminDashboard.TabOrders
       [o_ready; o_confirmed; o_collected] [] "all" false AdminDashboard.ViewHistory).

(** An order with two seats, one of them gone, and two items, the snack
    of one of them gone. *)
Definition j_partial : OrderCard.joined :=
  OrderCard.mkJoined o_ready
    (Some [OrderCard.mkOrderSeat "seat-1" (Some (OrderCard.mkSeatRef "A1"));
           OrderCard.mkOrderSeat "seat-2" None])
    (Some [OrderCard.mkOrderItem 2 (Some (OrderCard.mkSnackRef "Popcorn"));
           OrderCard.mkOrderItem 1 None]).

Definition my_spinner : MyOrders.State :=
  MyOrders.mkState false (Some "u1") [o_ready; o_collected] true MyOrders.TabActive.

Definition my_history : MyOrders.State :=
  MyOrders.mkState false (Some "u1") [o_ready; o_collected] false MyOrders.TabHistory.

(** Membership in a list that is written out. *)
Ltac in_cases :=
  repeat (rewrite ?elem_of_cons, ?elem_of_nil in *); naive_solver.

(** The five parts of the characterisation of a successful run of
    [handleAddShow], for a run that shows no success toast. *)
Ltac show_fails :=
  split_and!;
  [ split;
    [ intros [? ?]; in_cases
    | intros (? & ? & ? & ? & ? & ?); simplify_eq/=; congruence ]
  | split; [intros ?; in_cases | intros [? ?]; in_cases]
  | split; [intros [? ?]; in_cases | intros [? ?]; in_cases]
  | intros [? ?]; in_cases
  | intros _; reflexivity ].

(** ** Scheduling a show *)

Section AddShow.
Import AddMovieForm.

Lemma seatRows_length (showData_id : string) : length (seatRows showData_id) = 64.
Proof. reflexivity. Qed.

(** The seat at row [r], column [c] (both from 0) is the [8 r + c]-th. *)
Lemma seatRows_lookup (showData_id row : string) (r c : nat) :
  ROWS !! r = Some row → c < COLS →
  seatRows showData_id !! (r * COLS + c) =
    Some (mkSeat showData_id (row +:+ number_to_string (c + 1)) false).
Proof.
  intros Hr Hc. unfold COLS in *.
  do 8 (destruct r as [|r]; [injection Hr as <-;
    do 8 (destruct c as [|c]; [reflexivity|]); lia|]).
  discriminate Hr.
Qed.

(** C2: for every show identifier the generated seats are 64, their
    labels are A1..A8, B1..B8, ..., H1..H8 in that order, each seat is
    unbooked and each belongs to the show. *)
Theorem seatRows_grid (showData_id : string) :
  length (seatRows showData_id) = 64 ∧
  seat_number <$> seatRows showData_id = seat_labels ∧
  Forall (λ s, is_booked s = false ∧ seat_show_id s = showData_id)
         (seatRows showData_id).
Proof.
  split; [reflexivity|]. split; [reflexivity|].
  unfold seatRows, ROWS, COLS. cbn. repeat constructor.
Qed.

(** The bulk insert of a run whose show insert worked carries exactly the
    generated grid of the new show. *)
Lemma handleAddShow_inserts_grid svc showForm rows :
  InsertSeats rows ∈ handleAddShow svc showForm →
  ∃ showData_id, rows = seatRows showData_id.
Proof.
  unfold handleAddShow.
  destruct (_ || _); [in_cases|].
  destruct (toISOString _ _); [|in_cases].
  cbv zeta. destruct (error _); [in_cases|].
  destruct (data _) as [showData|]; [|in_cases].
  destruct (seats_insert _ _); intros H; exists (show_row_id showData); in_cases.
Qed.

(** C5: when the show insert works and the bulk seat insert fails, the
    run shows the error toast "Show created but seats failed: ..." with
    the service's message, which is none of the handler's other messages;
    it shows no other error and no success toast, and neither resets the
    form nor refreshes the list of shows. *)
Theorem handleAddShow_seats_failed svc showForm iso showData seatError :
  falsy (movie_id showForm) = false →
  falsy (screen showForm) = false →
  falsy (show_time showForm) = false →
  toISOString svc (show_time showForm) = Some iso →
  shows_insert svc (mkShowForm (movie_id showForm) (screen showForm) iso)
    = mkShowResponse (Some showData) None →
  seats_insert svc (seatRows (show_row_id showData)) = Some seatError →
  let tr := handleAddShow svc showForm in
  let msg := "Show created but seats failed: " +:+ message seatError in
  reports_failure tr msg ∧
  (∀ m, reports_failure tr m → m = msg) ∧
  (¬ reports_success tr) ∧
  (msg ∉ ["Movie, screen, and show time are required";
          "Failed to create show";
          "Show scheduled with 64 seats!"]) ∧
  (FetchShows ∉ tr) ∧
  (∀ f, SetShowForm f ∉ tr).
Proof.
  intros Hm Hs Ht Hiso Hshow Hseats tr msg. subst tr msg.
  unfold handleAddShow, reports_failure, reports_success.
  rewrite Hm, Hs, Ht, Hiso. cbn [orb]. cbv zeta.
  rewrite Hshow. cbn [error data]. rewrite Hseats.
  repeat split.
  - in_cases.
  - intros m Hin. in_cases.
  - intros [m Hin]. in_cases.
  - cbn. in_cases.
  - in_cases.
  - intros f Hin. in_cases.
Qed.

Lemma handleAddShow_seats_failed_witness :
  let tr := handleAddShow svc_seats_fail form_filled in
  reports_failure tr "Show created but seats failed: timeout" ∧
  (¬ reports_success tr).
Proof.
  pose proof (handleAddShow_seats_failed svc_seats_fail form_filled
    "2026-01-01T18:00"
    (mkShowRow "show-1" "movie-1" "Screen 1" "2026-01-01T18:00")
    (mkError "timeout")
    eq_refl eq_refl eq_refl eq_refl eq_refl eq_refl) as H.
  cbv zeta in H. destruct H as (H1 & _ & H3 & _).
  split; [exact H1 | exact H3].
Defined.

End AddShow.

(** ** The admin dashboard *)

Section Dashboard.
Import AdminDashboard.

Lemma restatus_id orderId s o : id (restatus orderId s o) = id o.
Proof. unfold restatus. case_decide; reflexivity. Qed.

Lemma restatus_idem orderId s o :
  restatus orderId s (restatus orderId s o) = restatus orderId s o.
Proof.
  unfold restatus. destruct (decide (id o = orderId)) as [H|H].
  - rewrite decide_True by exact H. reflexivity.
  - rewrite decide_False by exact H. reflexivity.
Qed.

Lemma restatus_other orderId s o : id o ≠ orderId → restatus orderId s o = o.
Proof. unfold restatus. case_decide; congruence. Qed.

Lemma restatus_hit orderId s o : id o = orderId → restatus orderId s o = set_status o s.
Proof. unfold restatus. case_decide; congruence. Qed.

Lemma set_status_same o : set_status o (status o) = o.
Proof. destruct o; reflexivity. Qed.

Lemma restatus_ids orderId s (l : list order) : id <$> (restatus orderId s <$> l) = id <$> l.
Proof.
  rewrite <- list_fmap_compose. apply list_fmap_ext.
  intros _ o _. apply restatus_id.
Qed.







End Dashboard.

(** ** The dashboard with calls in flight *)

Section InFlight.
Import AdminDashboard Live.

Lemma status_written_refl (l : list order) : Forall2 status_written l l.
Proof. induction l; constructor; [by left|done]. Qed.

Lemma status_written_trans o1 o2 o3 :
  status_written o1 o2 → status_written o2 o3 → status_written o1 o3.
Proof.
  intros [->|[b ->]] [->|[b' ->]]; [by left|right; by exists b'|right; by exists b|].
  right. by exists b'.
Qed.

Lemma restatus_written orderId b (l : list order) :
  Forall2 status_written l (restatus orderId (button_status b) <$> l).
Proof.
  apply Forall2_fmap_r. induction l as [|o l IH]; constructor; [|done].
  unfold compose. destruct (decide (id o = orderId)) as [Hid|Hid].
  - rewrite restatus_hit by done. right. by exists b.
  - rewrite restatus_other by done. by left.
Qed.

(** One event changes the stored orders by the write of a button only. *)
Lemma step_stored e w : Forall2 status_written (stored w) (stored (step e w)).
Proof.
  destruct e as [orderId b|n applied|n|ok shows|n|v|f|t]; simpl;
    try apply status_written_refl.
  - destruct (offers _ _ _); apply status_written_refl.
  - destruct (writing w !! n) as [c|]; [|apply status_written_refl]. simpl.
    destruct applied; [apply restatus_written|apply status_written_refl].
  - destruct (awaiting w !! n); apply status_written_refl.
  - destruct (fetching w !! n); apply status_written_refl.
Qed.

Lemma run_stored evs w : Forall2 status_written (stored w) (stored (run evs w)).
Proof.
  revert w. induction evs as [|e evs IH]; intros w; [apply status_written_refl|].
  simpl. eapply Forall2_trans; [|apply step_stored|apply IH].
  apply status_written_trans.
Qed.

(** A click carried to its end with nothing in between is the action of
    [AdminDashboard.step]. *)
Lemma click_carried_through orderId b applied w :
  run [Click orderId b; Write 0 applied; Resume 0] (quiet w)
  = quiet (AdminDashboard.step (AdminDashboard.Click orderId b applied) w).
Proof.
  unfold run, quiet. simpl. destruct (offers (view w) orderId b); reflexivity.
Qed.



(** Collected is left when a Collected click and a Preparing click on
    the same Ready row overlap: both buttons are there until the first
    call resumes. *)
Example collected_left_by_overlapping_clicks :
  let w1 := run [Click "o1" BtnCollected; Click "o1" BtnPreparing; Write 0 true]
              (quiet w_ready) in
  let w2 := run [Write 0 true; Resume 0; Resume 0] w1 in
  status <$> stored w1 = ["Collected"] ∧
  status <$> stored w2 = ["Preparing"] ∧
  status <$> orders (dash w2) = ["Preparing"].
Proof. repeat split; vm_compute; reflexivity. Qed.

(** The status the dashboard holds can go back to anything the table
    holds: after a Ready click whose write was not applied, a fetch
    takes the held status from Ready back to Confirmed. *)
Example fetch_takes_held_status_back :
  let w1 := run [Click "o2" BtnReady; Write 0 false; Resume 0] (quiet w_confirmed) in
  let w2 := run [Query true None; Fetched 0] w1 in
  status <$> orders (dash w1) = ["Ready"] ∧
  status <$> orders (dash w2) = ["Confirmed"].
Proof. repeat split; vm_compute; reflexivity. Qed.




End InFlight.

(** ** The admin dashboard: one status update *)

Section DashboardStatus.
Import AdminDashboard.

(** C4 fails as stated: a status that is none of the four is taken as it
    is.  The dashboard's copy of the order gets it even when the service
    did not apply the write, and the table gets it when the service did. *)
Lemma updateStatus_takes_unknown_status :
  ("Cancelled" ∉ known_statuses) ∧
  shown_status (view w_ready) "o1" = Some "Ready" ∧
  shown_status (view (updateStatus false "o1" "Cancelled" w_ready)) "o1"
    = Some "Cancelled" ∧
  status <$> db_orders (updateStatus true "o1" "Cancelled" w_ready) = ["Cancelled"].
Proof.
  split; [unfold known_statuses; in_cases|].
  repeat split; vm_compute; reflexivity.
Qed.

(** C4, as the handler has it: [updateStatus] does not look at the
    requested status.  Whatever the string, the held orders with the
    given id take it and the others stay, and so do the stored rows when
    the service applies the write, while the table stays as it was when
    it does not; asking for the status the orders already have leaves
    dashboard and table as they are, whether or not the write is
    applied.  The calls the dashboard itself makes are those of its three
    buttons: along every run of it a stored order keeps its status or
    takes Preparing, Ready or Collected. *)
Theorem updateStatus_unguarded applied orderId s w :
  let w' := updateStatus applied orderId s w in
  (∀ i o, orders (view w) !! i = Some o →
     orders (view w') !! i = Some (if decide (id o = orderId) then set_status o s else o)) ∧
  (∀ o, o ∈ orders (view w') → id o = orderId → status o = s) ∧
  (applied = true →
     (∀ i o, db_orders w !! i = Some o →
        db_orders w' !! i = Some (if decide (id o = orderId) then set_status o s else o)) ∧
     (∀ o, o ∈ db_orders w' → id o = orderId → status o = s)) ∧
  (applied = false → db_orders w' = db_orders w) ∧
  ((∀ o, o ∈ (orders (view w) ++ db_orders w)%list → id o = orderId → status o = s) →
   w' = w) ∧
  (∀ evs lw i o o',
     Live.stored lw !! i = Some o → Live.stored (Live.run evs lw) !! i = Some o' →
     status o' = status o ∨ status o' ∈ ["Preparing"; "Ready"; "Collected"]).
Proof.
  intros w'. subst w'.
  assert (Hat : ∀ (l : list order) i o, l !! i = Some o →
    (restatus orderId s <$> l) !! i
    = Some (if decide (id o = orderId) then set_status o s else o)).
  { intros l i o Hi. by rewrite list_lookup_fmap, Hi. }
  assert (Hset : ∀ (l : list order) o,
    o ∈ restatus orderId s <$> l → id o = orderId → status o = s).
  { intros l o Hin Hid. apply list_elem_of_fmap in Hin as (o' & -> & _).
    unfold restatus in *. case_decide; [reflexivity|done]. }
  split_and!.
  - intros i o Hi. simpl. by apply Hat.
  - intros o Hin Hid. simpl in Hin. by eapply Hset.
  - intros ->. simpl. split; [intros i o Hi; by apply Hat|].
    intros o Hin Hid. by eapply Hset.
  - by intros ->.
  - intros Hall.
    assert (Hfix : ∀ l : list order,
      (∀ o, o ∈ l → id o = orderId → status o = s) → restatus orderId s <$> l = l).
    { intros l Hl. rewrite <- (list_fmap_id l) at 2. apply list_fmap_ext.
      intros i o Hi. apply list_elem_of_lookup_2 in Hi.
      unfold restatus. case_decide as Hid; [|reflexivity].
      rewrite <- (Hl o Hi Hid). apply set_status_same. }
    destruct w as [db [al at' os sh fs ld ov]].
    unfold updateStatus, setOrders, db_update_status.
    cbn [view db_orders orders authLoading activeTab shows filterShow
         loading ordersView] in *.
    rewrite (Hfix os) by (intros; apply Hall; [apply elem_of_app|]; auto).
    f_equal. destruct applied; [|reflexivity].
    apply Hfix. intros; apply Hall; [apply elem_of_app|]; auto.
  - intros evs lw i o o' Ho Ho'.
    destruct (Forall2_lookup_lr _ _ _ _ _ _ (run_stored evs lw) Ho Ho') as [->|[b ->]].
    + by left.
    + right. destruct b; simpl; in_cases.
Qed.

Lemma updateStatus_unguarded_witness :
  (∀ o, o ∈ db_orders (updateStatus true "o1" "Cancelled" w_ready) →
        id o = "o1" → status o = "Cancelled") ∧
  db_orders (updateStatus false "o1" "Cancelled" w_ready) = db_orders w_ready ∧
  updateStatus false "o1" "Ready" w_ready = w_ready.
Proof.
  destruct (updateStatus_unguarded true "o1" "Cancelled" w_ready)
    as (_ & _ & Happlied & _).
  destruct (updateStatus_unguarded false "o1" "Cancelled" w_ready)
    as (_ & _ & _ & Hnot & _).
  destruct (updateStatus_unguarded false "o1" "Ready" w_ready)
    as (_ & _ & _ & _ & Hsame & _).
  split_and!.
  - by apply Happlied.
  - apply Hnot. reflexivity.
  - apply Hsame. intros o Ho _. simpl in Ho.
    apply elem_of_cons in Ho as [->|Ho]; [reflexivity|].
    apply list_elem_of_singleton in Ho. subst o. reflexivity.
Defined.

(** C9: asking [updateStatus] for the same status a second time gives
    the state one call gives, the call whose write is applied if either
    of the two is; the dashboard shows after the second call what it
    showed after the first.  The handler has no failing branch. *)
Theorem updateStatus_idempotent applied1 applied2 orderId s w :
  updateStatus applied2 orderId s (updateStatus applied1 orderId s w)
    = updateStatus (applied1 || applied2) orderId s w ∧
  view (updateStatus applied2 orderId s (updateStatus applied1 orderId s w))
    = view (updateStatus applied1 orderId s w).
Proof.
  assert (Htwice : ∀ l : list order,
    restatus orderId s <$> (restatus orderId s <$> l) = restatus orderId s <$> l).
  { intros l. rewrite <- list_fmap_compose. apply list_fmap_ext.
    intros _ o _. apply restatus_idem. }
  split.
  - unfold updateStatus, setOrders. simpl. rewrite Htwice. f_equal.
    destruct applied1, applied2; simpl; try reflexivity. apply Htwice.
  - unfold updateStatus, setOrders. simpl. by rewrite Htwice.
Qed.

Lemma revenue_from_filters (f : string) (l : list order) (sum : number) :
  foldl (λ s o, (s + total_amount o)%float) sum
    (filter (λ o, status o ≠ "Collected")
       (if decide (f = "all") then l else filter (λ o, show_id o = f) l))
  = revenue_from sum f l.
Proof.
  revert sum. induction l as [|o l IH]; intros sum;
    [by destruct (decide (f = "all"))|].
  cbn [revenue_from]. rewrite <- IH. unfold counts_for_revenue.
  destruct (decide (f = "all")) as [Hall|Hall].
  - rewrite (bool_decide_eq_true_2 _ Hall), orb_true_l, andb_true_r.
    rewrite filter_cons.
    destruct (decide (status o ≠ "Collected")) as [Hc|Hc].
    + by rewrite (bool_decide_eq_true_2 _ Hc).
    + by rewrite (bool_decide_eq_false_2 _ Hc).
  - rewrite (bool_decide_eq_false_2 _ Hall), orb_false_l.
    rewrite (filter_cons (λ o, show_id o = f)).
    destruct (decide (show_id o = f)) as [Hs|Hs].
    + rewrite (bool_decide_eq_true_2 _ Hs), andb_true_r, filter_cons.
      destruct (decide (status o ≠ "Collected")) as [Hc|Hc].
      * by rewrite (bool_decide_eq_true_2 _ Hc).
      * by rewrite (bool_decide_eq_false_2 _ Hc).
    + by rewrite (bool_decide_eq_false_2 _ Hs), andb_false_r.
Qed.

Lemma revenue_of_filters (f : string) (l : list order) :
  foldl (λ s o, (s + total_amount o)%float) 0%float
    (filter (λ o, status o ≠ "Collected")
       (if decide (f = "all") then l else filter (λ o, show_id o = f) l))
  = revenue_of f l.
Proof. apply revenue_from_filters. Qed.

(** The figure is the rounded sum: three orders of 2^53, 1 and 1 rupees
    show 2^53, and 0.1 and 0.2 show 0.30000000000000004. *)
Example totalRevenue_rounds :
  totalRevenue (view w_large) = 9007199254740992%float ∧
  totalRevenue (view w_tenths) = 0x1.3333333333334p-2%float.
Proof. split; vm_compute; reflexivity. Qed.


(** The dashboard's two lists split the orders of the chosen show. *)
Lemma admin_partition S :
  historyOrders S ++ activeOrders S ≡ₚ byShow S.
Proof. unfold historyOrders, activeOrders. apply filter_app_complement. Qed.

End DashboardStatus.

(** ** The customer's orders *)

Section Customer.
Import MyOrders.

(** C7: the active list is the fetched orders whose status is not
    Collected, the history list those whose status is Collected; no order
    is in both, and the two together are the fetched orders, each as
    often as it was fetched. *)
Theorem my_orders_partition S :
  (∀ o, o ∈ active S ↔ o ∈ orders S ∧ status o ≠ "Collected") ∧
  (∀ o, o ∈ history S ↔ o ∈ orders S ∧ status o = "Collected") ∧
  (∀ o, ¬ (o ∈ active S ∧ o ∈ history S)) ∧
  history S ++ active S ≡ₚ orders S ∧
  length (active S) + length (history S) = length (orders S).
Proof.
  assert (Hperm : history S ++ active S ≡ₚ orders S)
    by apply filter_app_complement.
  unfold active, history in *. split_and!.
  - intros o. rewrite list_elem_of_filter. tauto.
  - intros o. rewrite list_elem_of_filter. tauto.
  - intros o. rewrite !list_elem_of_filter. tauto.
  - exact Hperm.
  - apply Permutation_length in Hperm. rewrite length_app in Hperm. lia.
Qed.

(** C8 fails as stated: the customer's subscription names UPDATE, so the
    insert of an order of theirs does not call the handler, and the list
    stays without the order that the query would now return. *)
Lemma my_orders_misses_insert :
  delivers MyOrders.subscription (orders_change INSERT) = false ∧
  select_orders tbl_inserted "u1" = [o_confirmed] ∧
  orders (on_change (orders_change INSERT)
            (Some (select_orders tbl_inserted "u1")) my_empty) = [].
Proof. repeat split; vm_compute; reflexivity. Qed.

(** C8, as the two views have it: every change of an order, insert,
    update or delete, calls the dashboard's handler, and after it the
    dashboard holds what the fetch brought; the customer's list has a
    channel only while a user is signed in, and its handler is called for
    updates and for nothing else, so after an update the list is what the
    fetch brought and after an insert or delete it is what it was. *)
Theorem order_changes_observed :
  (∀ e, delivers AdminDashboard.subscription (orders_change e) = true) ∧
  (∀ e, delivers MyOrders.subscription (orders_change e) = true ↔ e = UPDATE) ∧
  (∀ e fetched showsRes S,
     AdminDashboard.orders
       (AdminDashboard.on_change (orders_change e) (Some fetched) showsRes S)
     = fetched) ∧
  (∀ fetched S, is_Some (user S) →
     orders (on_change (orders_change UPDATE) (Some fetched) S) = fetched) ∧
  (∀ e data S, e ≠ UPDATE → on_change (orders_change e) data S = S) ∧
  (∀ c data S, user S = None → on_change c data S = S).
Proof.
  split_and!.
  - done.
  - intros e. split; [by destruct e|by intros ->].
  - intros e fetched showsRes S. by destruct showsRes.
  - intros fetched S [u Hu]. unfold on_change. by rewrite Hu.
  - intros e data S He. unfold on_change. destruct (user S); by destruct e.
  - intros c data S Hu. unfold on_change. by rewrite Hu.
Qed.

Lemma order_changes_observed_witness :
  orders (on_change (orders_change UPDATE) (Some [o_confirmed]) my_empty) = [o_confirmed] ∧
  on_change (orders_change UPDATE) (Some [o_confirmed]) my_signed_out = my_signed_out.
Proof.
  destruct order_changes_observed as (_ & _ & _ & Hupd & _ & Hnone).
  split.
  - apply Hupd. by exists "u1".
  - apply Hnone. reflexivity.
Defined.

(** A status that names no member of [Object.prototype] gets a badge:
    its own style when it is one of the four, the Confirmed style
    otherwise. *)
Lemma render_badge_own_or_fallback o :
  status o ∉ Object_prototype →
  ∃ st, default (mkStyle "bg-primary/10 text-primary" "CheckCircle")
          (STATUS_STYLES !! status o) = st ∧
        render_badge o =
          Badge ("flex items-center gap-1 px-2.5 py-1 rounded-full text-xs font-medium "
                   +:+ cls st) (icon st) (status o).
Proof.
  intros Hnot. eexists; split; [reflexivity|].
  assert (Hget : get STATUS_STYLES (status o) =
    match STATUS_STYLES !! status o with Some s => JStyle s | None => JUndefined end).
  { unfold get. destruct (STATUS_STYLES !! status o); [reflexivity|].
    by rewrite decide_False. }
  unfold render_badge. cbv zeta. rewrite Hget.
  destruct (STATUS_STYLES !! status o) as [st|]; [reflexivity|].
  vm_compute. reflexivity.
Qed.

Lemma render_badge_own_or_fallback_witness :
  render_badge o_cancelled =
    Badge "flex items-center gap-1 px-2.5 py-1 rounded-full text-xs font-medium bg-primary/10 text-primary"
          "CheckCircle" "Cancelled".
Proof.
  destruct (render_badge_own_or_fallback o_cancelled) as (st & <- & ->).
  - apply (bool_decide_unpack _). vm_compute. exact I.
  - vm_compute. reflexivity.
Defined.

(** C10 at the status "constructor": the lookup finds the member that
    [STATUS_STYLES] inherits, which is not nullish, so the Confirmed
    style is not taken; the value has no [icon], and rendering the badge
    fails, for the card and so for the list. *)
Theorem render_badge_inherited_key_fails :
  STATUS_STYLES !! status o_constructor = None ∧
  get STATUS_STYLES (status o_constructor) = JInherited "constructor" ∧
  render_badge o_constructor = RenderError "Element type is invalid: got undefined" ∧
  badges my_constructor = [RenderError "Element type is invalid: got undefined"].
Proof. repeat split; vm_compute; reflexivity. Qed.

End Customer.

(** ** Scheduling a show: every run *)

Section AddShowRuns.
Import AddMovieForm.

Lemma seatRows_lookup_witness :
  seatRows "show-1" !! 19 = Some (mkSeat "show-1" "C4" false).
Proof.
  apply (seatRows_lookup "show-1" "C" 2 3); [reflexivity | unfold COLS; lia].
Defined.

(** No two generated seats of a show carry the same label. *)
Lemma seatRows_labels_NoDup (showData_id : string) :
  NoDup (seat_number <$> seatRows showData_id) ∧ NoDup (seatRows showData_id).
Proof.
  assert (Hl : NoDup (seat_number <$> seatRows showData_id)).
  { assert (seat_number <$> seatRows showData_id = seat_labels) as -> by reflexivity.
    apply (bool_decide_unpack _). vm_compute. exact I. }
  split; [exact Hl|]. by apply NoDup_fmap_1 in Hl.
Qed.

(** A run shows exactly one toast, except that it shows none when the
    date does not convert: then the handler throws after the form passed
    its check. *)
Lemma handleAddShow_toast_count svc showForm :
  length (filter (λ e, show_is_toast e = true) (handleAddShow svc showForm)) =
    if show_form_filled showForm &&
       bool_decide (toISOString svc (show_time showForm) = None)
    then 0 else 1.
Proof.
  unfold handleAddShow, show_form_filled.
  destruct (_ || _); [reflexivity|]. cbn [negb andb].
  destruct (toISOString _ _) as [iso|]; [|reflexivity]. cbv zeta.
  destruct (shows_insert _ _) as [[showData|] [e|]]; cbn [error data]; try reflexivity.
  destruct (seats_insert _ _); reflexivity.
Qed.

(** After a run that passed the check of the form, [savingShow] is false,
    except that it stays true when the date does not convert; a run that
    did not pass leaves it as it was. *)
Lemma handleAddShow_saving_after svc showForm b0 :
  savingShow_after b0 (handleAddShow svc showForm) =
    if show_form_filled showForm
    then bool_decide (toISOString svc (show_time showForm) = None)
    else b0.
Proof.
  unfold handleAddShow, show_form_filled.
  destruct (_ || _); [reflexivity|]. cbn [negb].
  destruct (toISOString _ _) as [iso|]; [|reflexivity]. cbv zeta.
  destruct (shows_insert _ _) as [[showData|] [e|]]; cbn [error data]; try reflexivity.
  destruct (seats_insert _ _); reflexivity.
Qed.

(** A run reports success exactly when the form is filled, the date
    converts, the show insert answers with a row and no error, and the
    seat insert answers with no error.  Only then is the list of shows
    fetched again and the form emptied; after any other run the form is
    what it was. *)
Lemma handleAddShow_success_iff svc showForm :
  let tr := handleAddShow svc showForm in
  (reports_success tr ↔
     show_form_filled showForm = true ∧
     ∃ iso showData,
       toISOString svc (show_time showForm) = Some iso ∧
       shows_insert svc (mkShowForm (movie_id showForm) (screen showForm) iso)
         = mkShowResponse (Some showData) None ∧
       seats_insert svc (seatRows (show_row_id showData)) = None) ∧
  (FetchShows ∈ tr ↔ reports_success tr) ∧
  ((∃ f, SetShowForm f ∈ tr) ↔ reports_success tr) ∧
  (reports_success tr → showForm_after showForm tr = emptyShow) ∧
  (¬ reports_success tr → showForm_after showForm tr = showForm).
Proof.
  intros tr. subst tr. unfold handleAddShow, show_form_filled, reports_success.
  destruct (_ || _); [show_fails|]. cbn [negb].
  destruct (toISOString _ _) as [iso|]; [|show_fails]. cbv zeta.
  destruct (shows_insert _ _) as [[showData|] [e|]] eqn:Hshow; cbn [error data];
    [show_fails| |show_fails|show_fails].
  destruct (seats_insert _ _) eqn:Hseats; [show_fails|].
  assert (Hok : ∃ msg, ToastSuccess msg ∈
    [SetSavingShow true;
     InsertShow (mkShowForm (movie_id showForm) (screen showForm) iso);
     InsertSeats (seatRows (show_row_id showData)); SetSavingShow false;
     ToastSuccess "Show scheduled with 64 seats!"; SetShowForm emptyShow; FetchShows]).
  { exists "Show scheduled with 64 seats!". in_cases. }
  split_and!.
  - split; [|done]. intros _. split; [reflexivity|]. by exists iso, showData.
  - split; [done|]. intros _. in_cases.
  - split; [done|]. intros _. exists emptyShow. in_cases.
  - reflexivity.
  - done.
Qed.

(** The requests of a run: a show is inserted only from a filled form,
    with the movie and screen of the form and the converted time; seats
    are inserted only for a show whose insert answered with a row and no
    error, and they are the grid of that row. *)
Lemma handleAddShow_requests svc showForm :
  let tr := handleAddShow svc showForm in
  (∀ row, InsertShow row ∈ tr →
     show_form_filled showForm = true ∧
     movie_id row = movie_id showForm ∧ screen row = screen showForm ∧
     toISOString svc (show_time showForm) = Some (show_time row)) ∧
  (∀ rows, InsertSeats rows ∈ tr →
     ∃ row showData,
       InsertShow row ∈ tr ∧
       shows_insert svc row = mkShowResponse (Some showData) None ∧
       rows = seatRows (show_row_id showData) ∧ length rows = 64).
Proof.
  intros tr. subst tr. unfold handleAddShow, show_form_filled.
  destruct (_ || _); [split; intros; in_cases|]. cbn [negb].
  destruct (toISOString _ _) as [iso|]; [|split; intros; in_cases]. cbv zeta.
  split.
  - intros row Hin.
    assert (row = mkShowForm (movie_id showForm) (screen showForm) iso) as ->.
    { destruct (shows_insert _ _) as [[showData|] [e|]]; cbn [error data] in Hin;
        try destruct (seats_insert _ _); in_cases. }
    done.
  - intros rows Hin.
    destruct (shows_insert _ _) as [[showData|] [e|]] eqn:Hshow;
      cbn [error data] in *; try in_cases.
    exists (mkShowForm (movie_id showForm) (screen showForm) iso), showData.
    assert (rows = seatRows (show_row_id showData)) as ->
      by (destruct (seats_insert _ _); in_cases).
    split_and!; [apply elem_of_cons; right; apply list_elem_of_here|done..].
Qed.

(** When the show insert answers with an error or with no row, the run
    shows the error's message, or "Failed to create show" when there is
    no error, inserts no seats, reports no success and puts [savingShow]
    back to false. *)
Lemma handleAddShow_show_failed svc showForm iso :
  show_form_filled showForm = true →
  toISOString svc (show_time showForm) = Some iso →
  let res := shows_insert svc (mkShowForm (movie_id showForm) (screen showForm) iso) in
  (error res ≠ None ∨ data res = None) →
  let tr := handleAddShow svc showForm in
  reports_failure tr (default "Failed to create show" (message <$> error res)) ∧
  (∀ rows, InsertSeats rows ∉ tr) ∧
  (¬ reports_success tr) ∧
  savingShow_after true tr = false.
Proof.
  intros Hfilled Hiso res Hfail tr. subst res tr.
  unfold show_form_filled in Hfilled.
  unfold handleAddShow, reports_failure, reports_success.
  apply negb_true_iff in Hfilled. rewrite Hfilled, Hiso. cbv zeta.
  destruct (shows_insert _ _) as [[showData|] [e|]]; cbn [error data] in *;
    try (split_and!; [in_cases|intros rows Hin; in_cases|intros [m Hin]; in_cases|done]).
  destruct Hfail; done.
Qed.

Lemma handleAddShow_show_failed_witness :
  reports_failure (handleAddShow svc_show_error form_filled) "duplicate key" ∧
  reports_failure (handleAddShow svc_show_no_row form_filled) "Failed to create show".
Proof.
  split.
  - apply (handleAddShow_show_failed svc_show_error form_filled "2026-01-01T18:00");
      [reflexivity|reflexivity|left; discriminate].
  - apply (handleAddShow_show_failed svc_show_no_row form_filled "2026-01-01T18:00");
      [reflexivity|reflexivity|right; reflexivity].
Defined.

End AddShowRuns.

(** ** Adding a movie, adding a snack *)

Section AddMovieRuns.
Import AddMovie.

(** A movie is inserted exactly when title and duration are filled, and
    it is the form as typed; the run reports success exactly when that
    insert has no error; the form is emptied and the movies fetched again
    on success only; and every run shows one toast. *)
Lemma handleAddMovie_outcomes svc movieForm :
  let tr := handleAddMovie svc movieForm in
  let filled := negb (AddMovieForm.falsy (title movieForm) ||
                      AddMovieForm.falsy (duration movieForm)) in
  (∀ row, InsertMovie row ∈ tr ↔ filled = true ∧ row = movieForm) ∧
  ((∃ m, ToastSuccess m ∈ tr) ↔ filled = true ∧ movies_insert svc movieForm = None) ∧
  ((∃ f, SetMovieForm f ∈ tr) ↔ ∃ m, ToastSuccess m ∈ tr) ∧
  (FetchMovies ∈ tr ↔ ∃ m, ToastSuccess m ∈ tr) ∧
  length (filter (λ e, is_toast e = true) tr) = 1.
Proof.
  intros tr filled. subst tr filled. unfold handleAddMovie.
  destruct (_ || _); cbn [negb].
  { split_and!; [intros row|..|reflexivity]; split;
      try (intros [? ?]); try (intros ?); in_cases. }
  destruct (movies_insert _ _) as [e|].
  - split_and!; [intros row|..|reflexivity]; split;
      try (intros [? ?]); try (intros ?); in_cases.
  - assert (Hok : ∃ m, ToastSuccess m ∈
      [SetSavingMovie true; InsertMovie movieForm; SetSavingMovie false;
       ToastSuccess "Movie added!"; SetMovieForm emptyMovie; FetchMovies]).
    { exists "Movie added!". in_cases. }
    split_and!; [intros row; split; [intros ?|intros [_ ->]]; in_cases
                |done
                |split; [done|intros _; exists emptyMovie; in_cases]
                |split; [done|intros _; in_cases]
                |reflexivity].
Qed.

End AddMovieRuns.

Section AddSnackRuns.
Import AddSnackForm.

(** A snack is inserted only from a form whose name and price are filled
    and whose price reads as a number above zero; the row carries that
    number and the other fields of the form. *)
Lemma handleSubmit_inserts_valid svc form row :
  InsertSnack row ∈ handleSubmit svc form →
  name form ≠ "" ∧ price form ≠ "" ∧
  positive_number (row_price row) ∧
  row = mkSnackRow (name form) (Number svc (price form)) (category form) (image_url form).
Proof.
  unfold handleSubmit, AddMovieForm.falsy.
  destruct (decide (name form = "")) as [Hn|Hn].
  { rewrite (bool_decide_eq_true_2 _ Hn). cbn [orb]. intros H. in_cases. }
  destruct (decide (price form = "")) as [Hp|Hp].
  { rewrite (bool_decide_eq_true_2 _ Hp), orb_true_r. intros H. in_cases. }
  rewrite (bool_decide_eq_false_2 _ Hn), (bool_decide_eq_false_2 _ Hp). cbn [orb].
  destruct (Number svc (price form)) as [|negative|m e] eqn:HN; cbn [isNaN le_zero orb].
  - intros H. in_cases.
  - destruct negative; cbv zeta.
    + intros H. in_cases.
    + intros H. assert (row = mkSnackRow (name form) (Infinity false)
                               (category form) (image_url form)) as ->
        by (destruct (snacks_insert _ _); in_cases).
      done.
  - case_bool_decide as Hm; cbv zeta.
    + intros H. in_cases.
    + intros H. assert (row = mkSnackRow (name form) (Finite m e)
                               (category form) (image_url form)) as ->
        by (destruct (snacks_insert _ _); in_cases).
      split_and!; try done. simpl. lia.
Qed.

Lemma handleSubmit_inserts_valid_witness :
  InsertSnack (mkSnackRow "Butter Popcorn" (Finite 150 0) "snack" "")
    ∈ handleSubmit svc_snack snack_form ∧
  positive_number (Finite 150 0).
Proof.
  assert (Hin : InsertSnack (mkSnackRow "Butter Popcorn" (Finite 150 0) "snack" "")
                  ∈ handleSubmit svc_snack snack_form).
  { vm_compute. apply elem_of_cons. right. apply list_elem_of_here. }
  split; [exact Hin|].
  destruct (handleSubmit_inserts_valid svc_snack snack_form _ Hin) as (_ & _ & Hpos & _).
  exact Hpos.
Defined.

(** Every run of the snack form shows one toast; the form is emptied
    and the snacks fetched again exactly when the snack was inserted and
    the insert had no error. *)
Lemma handleSubmit_outcomes svc form :
  let tr := handleSubmit svc form in
  length (filter (λ e, is_toast e = true) tr) = 1 ∧
  ((∃ f, SetForm f ∈ tr) ↔
     ∃ row, InsertSnack row ∈ tr ∧ snacks_insert svc row = None) ∧
  (FetchSnacks ∈ tr ↔ ∃ f, SetForm f ∈ tr) ∧
  ((∃ m, ToastSuccess m ∈ tr) ↔ ∃ f, SetForm f ∈ tr).
Proof.
  intros tr. subst tr. unfold handleSubmit.
  destruct (_ || _).
  { split_and!; [reflexivity|..]; split;
      try (intros (? & ? & ?)); try (intros [? ?]); try (intros ?); in_cases. }
  destruct (_ || _).
  { split_and!; [reflexivity|..]; split;
      try (intros (? & ? & ?)); try (intros [? ?]); try (intros ?); in_cases. }
  cbv zeta.
  destruct (snacks_insert _ _) as [e|] eqn:Hins.
  - split_and!; [reflexivity|..]; split;
      try (intros (? & ? & ?)); try (intros [? ?]); try (intros ?);
      in_cases.
  - assert (Hf : ∃ f, SetForm f ∈
      [SetSaving true;
       InsertSnack (mkSnackRow (name form) (Number svc (price form))
                      (category form) (image_url form));
       SetSaving false; ToastSuccess "Snack added!"; SetForm empty; FetchSnacks]).
    { exists empty. in_cases. }
    split_and!; [reflexivity|..]; split; try done; intros _.
    + eexists. split; [|exact Hins]. in_cases.
    + in_cases.
    + exists "Snack added!". in_cases.
Qed.

End AddSnackRuns.

(** ** The admin dashboard: what a status update keeps and changes *)

Section DashboardUpdates.
Import AdminDashboard DashboardCards.

Lemma restatus_absent orderId s (l : list order) :
  orderId ∉ id <$> l → restatus orderId s <$> l = l.
Proof.
  intros Hnot. rewrite <- (list_fmap_id l) at 2. apply list_fmap_ext.
  intros i o Hi. apply restatus_other. intros <-. apply Hnot.
  apply list_elem_of_fmap_2. by eapply list_elem_of_lookup_2.
Qed.

(** [updateStatus] touches statuses only: the held orders and the rows of
    the table keep their number, their order and every other field, an
    order with another id is not changed at all, and so are the filter,
    the view, the tab and the loading flags. *)
Lemma updateStatus_only_status applied orderId s w :
  let w' := updateStatus applied orderId s w in
  let rest := λ o, (id o, user_id o, show_id o, total_amount o, payment_id o) in
  rest <$> orders (view w') = rest <$> orders (view w) ∧
  rest <$> db_orders w' = rest <$> db_orders w ∧
  (∀ i o, orders (view w) !! i = Some o → id o ≠ orderId →
          orders (view w') !! i = Some o) ∧
  (∀ i o, db_orders w !! i = Some o → id o ≠ orderId → db_orders w' !! i = Some o) ∧
  filterShow (view w') = filterShow (view w) ∧
  ordersView (view w') = ordersView (view w) ∧
  activeTab (view w') = activeTab (view w) ∧
  loading (view w') = loading (view w) ∧
  shows (view w') = shows (view w).
Proof.
  intros w' rest. subst w'.
  assert (Hrest : ∀ l : list order, rest <$> (restatus orderId s <$> l) = rest <$> l).
  { intros l. rewrite <- list_fmap_compose. apply list_fmap_ext.
    intros _ o _. unfold restatus. simpl. by case_decide. }
  assert (Hother : ∀ (l : list order) i o, l !! i = Some o → id o ≠ orderId →
            (restatus orderId s <$> l) !! i = Some o).
  { intros l i o Hi Hne. rewrite list_lookup_fmap, Hi. simpl.
    by rewrite restatus_other. }
  unfold updateStatus, db_update_status. simpl.
  split_and!; try reflexivity; try apply Hrest; try apply Hother.
  - destruct applied; [apply Hrest|reflexivity].
  - destruct applied; [apply Hother|done].
Qed.


(** Status updates of two different orders can be asked for in either
    order. *)
Lemma updateStatus_commute applied1 applied2 id1 id2 s1 s2 w :
  id1 ≠ id2 →
  updateStatus applied2 id2 s2 (updateStatus applied1 id1 s1 w)
    = updateStatus applied1 id1 s1 (updateStatus applied2 id2 s2 w).
Proof.
  intros Hne.
  assert (Hcomm : ∀ l : list order,
    restatus id2 s2 <$> (restatus id1 s1 <$> l)
    = restatus id1 s1 <$> (restatus id2 s2 <$> l)).
  { intros l. rewrite <- !list_fmap_compose. apply list_fmap_ext.
    intros _ o _. unfold restatus. simpl.
    destruct (decide (id o = id1)) as [H1|H1];
      destruct (decide (id o = id2)) as [H2|H2]; simpl;
      repeat case_decide; try reflexivity; congruence. }
  unfold updateStatus, setOrders, db_update_status. simpl. f_equal.
  - destruct applied1, applied2; try reflexivity. apply Hcomm.
  - f_equal. apply Hcomm.
Qed.

Lemma updateStatus_commute_witness :
  updateStatus true "o2" "Preparing" (updateStatus false "o1" "Collected" w_mixed)
    = updateStatus false "o1" "Collected" (updateStatus true "o2" "Preparing" w_mixed).
Proof. apply updateStatus_commute. discriminate. Defined.


Lemma totalRevenue_revenue_of S :
  totalRevenue S = revenue_of (filterShow S) (orders S).
Proof. unfold totalRevenue, activeOrders, byShow. apply revenue_of_filters. Qed.

Lemma revenue_from_collected f orderId (l : list order) sum :
  revenue_from sum f (restatus orderId "Collected" <$> l)
  = revenue_from sum f (filter (λ o, id o ≠ orderId) l).
Proof.
  revert sum. induction l as [|x l IH]; intros sum; [reflexivity|].
  rewrite fmap_cons, filter_cons. cbn [revenue_from].
  destruct (decide (id x = orderId)) as [Hx|Hx].
  - rewrite restatus_hit by done.
    rewrite decide_False by (intros H; by apply H).
    unfold counts_for_revenue. simpl. apply IH.
  - rewrite restatus_other by done. rewrite decide_True by done.
    cbn [revenue_from]. apply IH.
Qed.

Lemma revenue_from_uncollected f orderId s (l : list order) sum :
  s ≠ "Collected" →
  (∀ o, o ∈ l → id o = orderId → status o ≠ "Collected") →
  revenue_from sum f (restatus orderId s <$> l) = revenue_from sum f l.
Proof.
  intros Hs. revert sum. induction l as [|x l IH]; intros sum Hall; [reflexivity|].
  rewrite fmap_cons. cbn [revenue_from].
  assert (counts_for_revenue f (restatus orderId s x) = counts_for_revenue f x
          ∧ total_amount (restatus orderId s x) = total_amount x) as [-> ->].
  { unfold restatus. case_decide as Hid; [|done]. split; [|reflexivity].
    unfold counts_for_revenue. simpl.
    rewrite (bool_decide_eq_true_2 _ Hs).
    by rewrite (bool_decide_eq_true_2 _ (Hall x (list_elem_of_here _ _) Hid)). }
  apply IH. intros o Ho. apply Hall. by right.
Qed.

(** What a status update does to the revenue figure: with an order
    marked Collected the figure is the sum over the held orders without
    it, and moving an order that is not Collected to a status other than
    Collected leaves the figure as it was. *)
Lemma totalRevenue_after_updateStatus applied orderId s w :
  (s = "Collected" →
   totalRevenue (view (updateStatus applied orderId s w))
     = totalRevenue (setOrders (filter (λ o, id o ≠ orderId)) (view w))) ∧
  (s ≠ "Collected" →
   (∀ o, o ∈ orders (view w) → id o = orderId → status o ≠ "Collected") →
   totalRevenue (view (updateStatus applied orderId s w)) = totalRevenue (view w)).
Proof.
  rewrite !totalRevenue_revenue_of.
  change (orders (view (updateStatus applied orderId s w)))
    with (restatus orderId s <$> orders (view w)).
  change (filterShow (view (updateStatus applied orderId s w)))
    with (filterShow (view w)).
  split.
  - intros ->. apply revenue_from_collected.
  - intros Hs Hall. by apply revenue_from_uncollected.
Qed.

Lemma totalRevenue_after_updateStatus_witness :
  totalRevenue (view (updateStatus true "o1" "Collected" w_mixed)) = 250%float ∧
  totalRevenue (view (updateStatus true "o1" "Preparing" w_mixed)) = 750%float.
Proof.
  destruct (totalRevenue_after_updateStatus true "o1" "Collected" w_mixed) as [H1 _].
  destruct (totalRevenue_after_updateStatus true "o1" "Preparing" w_mixed) as [_ H2].
  split.
  - rewrite H1 by reflexivity. vm_compute. reflexivity.
  - rewrite H2.
    + vm_compute. reflexivity.
    + discriminate.
    + intros o Ho Hid.
      repeat (apply elem_of_cons in Ho as [->|Ho]; [try discriminate Hid; discriminate|]).
      by apply elem_of_nil in Ho.
Defined.

End DashboardUpdates.

(** ** The admin dashboard: cards, toggle and notifications *)

Section CardsAndFeed.
Import AdminDashboard DashboardCards.

Lemma filter_disjoint_length {A} (P Q : A → Prop)
    `{∀ x, Decision (P x)} `{∀ x, Decision (Q x)} (l : list A) :
  (∀ x, P x → Q x → False) →
  length (filter P l) + length (filter Q l) ≤ length l.
Proof.
  intros Hdisj. induction l as [|x l IH]; [done|].
  rewrite !filter_cons.
  destruct (decide (P x)) as [HP|HP]; destruct (decide (Q x)) as [HQ|HQ];
    simpl; try lia.
  destruct (Hdisj x HP HQ).
Qed.

Lemma filter_none_length {A} (P : A → Prop) `{∀ x, Decision (P x)} (l : list A) :
  (∀ x, x ∈ l → ¬ P x) → length (filter P l) = 0.
Proof.
  intros Hnone. induction l as [|x l IH]; [done|].
  rewrite filter_cons. rewrite decide_False by (apply Hnone; left).
  apply IH. intros y Hy. apply Hnone. by right.
Qed.

(** The Confirmed and Preparing cards never add up to more than the
    Orders card, which is the count on the selected side of the toggle;
    in the history view both are 0, since every order listed there is
    Collected. *)
Lemma stat_cards S :
  stat_confirmed S + stat_preparing S ≤ stat_orders S ∧
  stat_orders S = toggle_count S (ordersView S) ∧
  (ordersView S = ViewHistory → stat_confirmed S = 0 ∧ stat_preparing S = 0).
Proof.
  unfold stat_confirmed, stat_preparing, stat_orders, toggle_count. split_and!.
  - apply filter_disjoint_length. intros o H1 H2. congruence.
  - unfold filtered. by destruct (ordersView S).
  - intros Hv. unfold filtered. rewrite Hv. unfold historyOrders.
    split; apply filter_none_length; intros o Ho;
      apply list_elem_of_filter in Ho as [Ho _]; congruence.
Qed.

Lemma stat_cards_witness :
  stat_confirmed (view w_mixed) = 0 ∧ stat_preparing (view w_mixed) = 0.
Proof. apply (stat_cards (view w_mixed)). reflexivity. Defined.

(** The two counts on the toggle add up to the number of orders of the
    chosen show, all held orders under "all", and no order is on both
    sides. *)
Lemma toggle_counts S :
  toggle_count S ViewActive + toggle_count S ViewHistory = length (byShow S) ∧
  (filterShow S = "all" →
   toggle_count S ViewActive + toggle_count S ViewHistory = length (orders S)) ∧
  (∀ o, ¬ (o ∈ activeOrders S ∧ o ∈ historyOrders S)).
Proof.
  assert (Hsum : toggle_count S ViewActive + toggle_count S ViewHistory
                 = length (byShow S)).
  { pose proof (admin_partition S) as Hperm. apply Permutation_length in Hperm.
    rewrite length_app in Hperm. simpl. lia. }
  split_and!.
  - exact Hsum.
  - intros Hall. rewrite Hsum. unfold byShow. by rewrite decide_True.
  - intros o. unfold activeOrders, historyOrders.
    rewrite !list_elem_of_filter. tauto.
Qed.

Lemma toggle_counts_witness :
  toggle_count (view w_mixed) ViewActive + toggle_count (view w_mixed) ViewHistory = 3.
Proof. apply (toggle_counts (view w_mixed)). reflexivity. Defined.

(** [STATUS_STYLES] owns the four statuses and nothing else. *)
Lemma STATUS_STYLES_unknown (s : string) :
  s ∉ known_statuses → MyOrders.STATUS_STYLES !! s = None.
Proof.
  unfold known_statuses. intros Hs.
  assert (s ≠ "Confirmed" ∧ s ≠ "Preparing" ∧ s ≠ "Ready" ∧ s ≠ "Collected")
    as (H1 & H2 & H3 & H4) by (split_and!; intros ->; apply Hs; in_cases).
  unfold MyOrders.STATUS_STYLES.
  rewrite !lookup_insert_ne by done. by rewrite lookup_singleton_ne.
Qed.

(** The status cell of the dashboard and the badge of the customer's
    card use the same colours: for every status that names no member of
    [Object.prototype], the badge's class is the dashboard's class for
    that status after the fixed prefix. *)
Lemma status_class_agrees o :
  status o ∉ MyOrders.Object_prototype →
  ∃ Icon,
    MyOrders.render_badge o =
      MyOrders.Badge
        ("flex items-center gap-1 px-2.5 py-1 rounded-full text-xs font-medium "
           +:+ status_class (status o))
        Icon (status o).
Proof.
  intros Hnot.
  destruct (render_badge_own_or_fallback o Hnot) as (st & Hst & ->).
  exists (MyOrders.icon st). f_equal. f_equal. subst st.
  unfold status_class.
  destruct (decide (status o = "Ready")) as [->|H1]; [reflexivity|].
  destruct (decide (status o = "Preparing")) as [->|H2]; [reflexivity|].
  destruct (decide (status o = "Collected")) as [->|H3]; [reflexivity|].
  destruct (decide (status o = "Confirmed")) as [->|H4]; [reflexivity|].
  rewrite STATUS_STYLES_unknown; [reflexivity|].
  unfold known_statuses. in_cases.
Qed.

Lemma status_class_agrees_witness :
  ∃ Icon,
    MyOrders.render_badge o_ready =
      MyOrders.Badge
        "flex items-center gap-1 px-2.5 py-1 rounded-full text-xs font-medium bg-green-500/10 text-green-400"
        Icon "Ready".
Proof.
  apply (status_class_agrees o_ready).
  apply (bool_decide_unpack _). vm_compute. exact I.
Defined.

(** A notification that comes twice with the same answers leaves the
    view where one leaves it, for the dashboard and for the customer's
    list. *)
Lemma on_change_twice c ordersRes showsRes data S S' :
  on_change c ordersRes showsRes (on_change c ordersRes showsRes S)
    = on_change c ordersRes showsRes S ∧
  MyOrders.on_change c data (MyOrders.on_change c data S')
    = MyOrders.on_change c data S'.
Proof.
  unfold on_change, MyOrders.on_change.
  split.
  - destruct (delivers _ _); [|reflexivity].
    by destruct ordersRes, showsRes, S.
  - destruct (MyOrders.user S') as [u|] eqn:Hu; [|by rewrite Hu].
    destruct (delivers _ _); [|by rewrite Hu].
    simpl. rewrite Hu. by destruct data, S'.
Qed.

End CardsAndFeed.

(** ** The customer's cards and ticket *)

Section Cards.
Import OrderCard.

Lemma seatNums_elem j s :
  s ∈ seatNums j ↔
  s ≠ "" ∧ ∃ l os, order_seats j = Some l ∧ os ∈ l ∧
                   seats os = Some (mkSeatRef s).
Proof.
  unfold seatNums. destruct (order_seats j) as [l|].
  - rewrite list_elem_of_omap. split.
    + intros (os & Hin & Hs). destruct (seats os) as [[n]|] eqn:Hseat; [|done].
      simpl in Hs. unfold AddMovieForm.falsy in Hs.
      case_bool_decide; [done|]. injection Hs as <-. eauto 6.
    + intros (Hne & l' & os & [= <-] & Hin & Hseat). exists os. split; [done|].
      rewrite Hseat. simpl. unfold AddMovieForm.falsy.
      by rewrite bool_decide_eq_false_2.
  - rewrite elem_of_nil. split; [done|]. by intros (_ & l & os & ? & _).
Qed.

Lemma join_nonempty sep (l : list string) :
  l ≠ [] → Forall (λ s, s ≠ "") l → join sep l ≠ "".
Proof.
  destruct l as [|x l]; [done|]. intros _ Hall.
  apply Forall_cons in Hall as [Hx _].
  destruct x as [|c x]; [done|]. by destruct l.
Qed.

(** The seat labels of a card are the labels of the joined seats that
    still exist, none of them empty; the Seats line of the card and the
    Seats line of the ticket are the same text, and it is never empty:
    the dash stands for an order without seats. *)
Lemma seats_line j :
  (∀ s, s ∈ seatNums j ↔
        s ≠ "" ∧ ∃ l os, order_seats j = Some l ∧ os ∈ l ∧
                         seats os = Some (mkSeatRef s)) ∧
  card_seats j = ticket_seats j ∧
  card_seats j ≠ "" ∧
  (order_seats j = None → card_seats j = "—").
Proof.
  assert (Hall : Forall (λ s, s ≠ "") (seatNums j)).
  { apply Forall_forall. intros s Hs. by apply seatNums_elem in Hs as [? _]. }
  unfold card_seats, ticket_seats, AddMovieForm.falsy.
  split_and!.
  - apply seatNums_elem.
  - destruct (seatNums j) as [|x l] eqn:Hl; [reflexivity|].
    rewrite bool_decide_eq_true_2 by (simpl; lia).
    rewrite bool_decide_eq_false_2; [reflexivity|].
    by apply join_nonempty.
  - destruct (seatNums j) as [|x l] eqn:Hl; [done|].
    rewrite bool_decide_eq_true_2 by (simpl; lia). by apply join_nonempty.
  - unfold seatNums. by intros ->.
Qed.

Lemma seats_line_witness :
  card_seats j_partial = "A1" ∧ ticket_seats j_partial = "A1".
Proof.
  destruct (seats_line j_partial) as (_ & Heq & _). rewrite <- Heq.
  split; reflexivity.
Defined.

Lemma item_text_nonempty it : item_text it ≠ "".
Proof.
  unfold item_text. destruct (snacks it) as [[n]|]; simpl; [|done].
  by destruct n.
Qed.

(** The Snacks line has one entry for each item of the order, in their
    order: [filter(Boolean)] drops none, and an item whose snack is gone
    reads "undefined ×" and its quantity. *)
Lemma snackItems_all j :
  snackItems j = item_text <$> default [] (order_items j) ∧
  (∀ it, snacks it = None →
         item_text it = "undefined ×" +:+ number_to_string (quantity it)).
Proof.
  split.
  - unfold snackItems. destruct (order_items j) as [l|]; [|reflexivity]. simpl.
    induction l as [|it l IH]; [reflexivity|].
    rewrite fmap_cons, filter_cons, IH.
    by rewrite decide_True by apply item_text_nonempty.
  - intros it Hnone. unfold item_text. by rewrite Hnone.
Qed.

(** The View Ticket button is on the cards of the active tab and on no
    other: once the spinner is gone, the orders that have one are the
    fetched orders that are not Collected while that tab is open, and
    none while the history tab is; while the spinner shows there is no
    button and no badge. *)
Lemma ticket_buttons_active S :
  (∀ o, o ∈ ticket_buttons S ↔
        MyOrders.authLoading S = false ∧ MyOrders.loading S = false ∧
        MyOrders.tab S = MyOrders.TabActive ∧ o ∈ MyOrders.orders S ∧
        status o ≠ "Collected") ∧
  (MyOrders.tab S = MyOrders.TabHistory →
   ticket_buttons S = [] ∧ ∀ o, o ∈ MyOrders.shown S → status o = "Collected") ∧
  (MyOrders.authLoading S = true ∨ MyOrders.loading S = true →
   ticket_buttons S = [] ∧ MyOrders.badges S = []).
Proof.
  unfold ticket_buttons, MyOrders.badges, MyOrders.shown, MyOrders.active,
    MyOrders.history.
  split_and!.
  - intros o. destruct (MyOrders.authLoading S), (MyOrders.loading S); simpl;
      try (rewrite elem_of_nil; split; [done|]; intros (? & ? & _); done).
    destruct (MyOrders.tab S).
    + rewrite list_elem_of_filter. tauto.
    + rewrite elem_of_nil. split; [done|]. by intros (_ & _ & ? & _).
  - intros ->. split; [by destruct (_ || _)|]. intros o.
    rewrite list_elem_of_filter. tauto.
  - intros [-> | ->]; [done|]. by rewrite orb_true_r.
Qed.

Lemma ticket_buttons_active_witness :
  (ticket_buttons my_history = [] ∧
   ∀ o, o ∈ MyOrders.shown my_history → status o = "Collected") ∧
  (ticket_buttons my_spinner = [] ∧ MyOrders.badges my_spinner = []).
Proof.
  destruct (ticket_buttons_active my_history) as (_ & Hh & _).
  destruct (ticket_buttons_active my_spinner) as (_ & _ & Hs).
  split; [apply Hh; reflexivity | apply Hs; right; reflexivity].
Defined.

End Cards.
